(** * Matrix MLS scraper: a shallow embedding of [matrix-scraper.js]

    The script drives one browser page and, inside [page.evaluate], maps the
    rows of a search-result table to flat records.  This development embeds

    - JavaScript strings as sequences of UTF-16 code units, with
      [String.prototype.trim];
    - the part of the DOM the callback touches ([querySelectorAll],
      [textContent]) as an interface, with a tree implementation;
    - the callback itself, in an error monad where member access on a
      nullish value throws;
    - the surrounding async function as a computation that logs a trace of
      console output and browser calls, every browser call being allowed to
      throw. *)

From Stdlib Require Import List String Ascii NArith ZArith Bool Arith Lia Sorted.
From ExtLib Require Import Structures.Monad.
Import ListNotations MonadNotation.
Local Open Scope monad_scope.

Set Implicit Arguments.

(* ===================================================================== *)
(** * JavaScript strings *)
(* ===================================================================== *)

Module JsString.

(** A JavaScript string is a sequence of 16-bit code units. *)
Definition code_unit : Type := N.
Definition jsstring : Type := list code_unit.

(** An ASCII literal of the source, as a JavaScript string. *)
Definition lit (s : string) : jsstring :=
  map N_of_ascii (list_ascii_of_string s).

(** WhiteSpace and LineTerminator code points of ECMAScript: TAB, LF, VT, FF,
    CR, SP, NBSP, U+1680, U+2000..U+200A, LS, PS, U+202F, U+205F, U+3000 and
    the byte order mark. *)
Definition whiteSpace : list code_unit :=
  [9; 10; 11; 12; 13; 32; 160; 5760;
   8192; 8193; 8194; 8195; 8196; 8197; 8198; 8199; 8200; 8201; 8202;
   8232; 8233; 8239; 8287; 12288; 65279]%N.

Definition isWhiteSpace (c : code_unit) : bool :=
  existsb (N.eqb c) whiteSpace.

Fixpoint trimStart (s : jsstring) : jsstring :=
  match s with
  | [] => []
  | c :: s' => if isWhiteSpace c then trimStart s' else s
  end.

Definition trimEnd (s : jsstring) : jsstring :=
  rev (trimStart (rev s)).

(** [String.prototype.trim]: leading and trailing white space removed. *)
Definition trim (s : jsstring) : jsstring :=
  trimEnd (trimStart s).

(** [isPrefix p s]: [s] starts with [p]. *)
Fixpoint isPrefix (p s : jsstring) : bool :=
  match p, s with
  | [], _ => true
  | _ :: _, [] => false
  | a :: p', b :: s' => N.eqb a b && isPrefix p' s'
  end.

(** [includes needle hay]: [needle] occurs in [hay] as a substring. *)
Fixpoint includes (needle hay : jsstring) : bool :=
  isPrefix needle hay ||
  match hay with
  | [] => false
  | _ :: hay' => includes needle hay'
  end.

(** A string of white space only. *)
Definition blank (s : jsstring) : Prop :=
  Forall (fun c => isWhiteSpace c = true) s.

(** A string that neither starts nor ends with white space. *)
Definition trimmed (s : jsstring) : Prop :=
  match s with
  | [] => True
  | c :: _ => isWhiteSpace c = false /\ isWhiteSpace (last s c) = false
  end.

End JsString.
Export JsString.

(* ===================================================================== *)
(** * The DOM, as far as the page callback uses it *)
(* ===================================================================== *)

(** The two selectors of the script, as syntax. *)
Inductive selector : Type :=
| TypeSelector (localName : string)
    (* td *)
| TypeAttrContains (localName attr : string) (needle : jsstring).
    (* tr[class*=...] *)

(** [tr[class*="SearchResult"]], the result-row marker (line 39). *)
Definition resultRowMarker : selector :=
  TypeAttrContains "tr" "class" (lit "SearchResult").

(** [td] (line 43). *)
Definition cellSelector : selector := TypeSelector "td".

(** What the callback asks of the DOM.  A NodeList is a list in document
    order; [textContent] has WebIDL type [DOMString?]: [None] is [null]. *)
Class DomApi (document element : Type) : Type := {
  documentQuerySelectorAll : selector -> document -> list element;
  elementQuerySelectorAll : selector -> element -> list element;
  textContent : element -> option jsstring
}.

(** ** A tree implementation *)

Module Tree.

#[warnings="-register-all"]
Inductive node : Type :=
| Text (data : jsstring)
| Comment (data : jsstring)
| Element (localName : string) (attributes : list (string * jsstring))
          (childNodes : list node).

Definition getAttribute (name : string) (attrs : list (string * jsstring))
  : option jsstring :=
  option_map snd (find (fun p => String.eqb (fst p) name) attrs).

Definition matches (sel : selector) (n : node) : bool :=
  match n with
  | Element tag attrs _ =>
      match sel with
      | TypeSelector t => String.eqb t tag
      | TypeAttrContains t a v =>
          String.eqb t tag &&
          match getAttribute a attrs with
          | Some x =>
              match v with
              | [] => false      (* an empty needle matches nothing *)
              | _ :: _ => includes v x
              end
          | None => false
          end
      end
  | _ => false
  end.

(** Descendants in tree (document) order, the node itself excluded. *)
Fixpoint descendants (n : node) : list node :=
  match n with
  | Element _ _ cs => flat_map (fun c => c :: descendants c) cs
  | _ => []
  end.

(** Concatenated data of the descendant text nodes. *)
Fixpoint descendantText (n : node) : jsstring :=
  match n with
  | Text d => d
  | Comment _ => []
  | Element _ _ cs => flat_map descendantText cs
  end.

Definition nodeTextContent (n : node) : option jsstring :=
  match n with
  | Text d | Comment d => Some d
  | Element _ _ _ => Some (descendantText n)
  end.

(** A document is given by its root element; the root is itself a candidate
    for [document.querySelectorAll], but an element is not a candidate for
    its own [querySelectorAll]. *)
#[export] Instance treeDom : DomApi node node := {
  documentQuerySelectorAll sel root := filter (matches sel) (root :: descendants root);
  elementQuerySelectorAll sel e := filter (matches sel) (descendants e);
  textContent := nodeTextContent
}.

End Tree.

(* ===================================================================== *)
(** * Errors and the error monad *)
(* ===================================================================== *)

Inductive error : Type :=
| TypeError (msg : string)
| Error (msg : string).

Inductive outcome (A : Type) : Type :=
| Ok (a : A)
| Throw (e : error).
Arguments Ok {A} a.
Arguments Throw {A} e.

#[export] Instance Monad_outcome : Monad outcome := {
  ret := @Ok;
  bind := fun A B (c : outcome A) (k : A -> outcome B) =>
            match c with
            | Ok a => k a
            | Throw e => Throw e
            end
}.

(* ===================================================================== *)
(** * The page callback (lines 38-57) *)
(* ===================================================================== *)

Section RowExtractor.

Context {document element : Type} {dom : DomApi document element}.

(** The JavaScript values a cell expression can take. *)
Inductive value : Type :=
| VUndefined
| VNull
| VString (s : jsstring)
| VElement (e : element).

(** An object literal: its properties in insertion order. *)
Definition object : Type := list (string * value).

Definition nullish (v : value) : bool :=
  match v with
  | VUndefined | VNull => true
  | _ => false
  end.

Definition truthy (v : value) : bool :=
  match v with
  | VUndefined | VNull => false
  | VString [] => false
  | VString (_ :: _) => true
  | VElement _ => true
  end.

(** [cells[i]] on a NodeList: [undefined] out of range. *)
Definition index (cells : list element) (i : nat) : value :=
  match nth_error cells i with
  | Some e => VElement e
  | None => VUndefined
  end.

(** [v.textContent]: a TypeError on a nullish base. *)
Definition getTextContent (v : value) : outcome value :=
  match v with
  | VUndefined | VNull =>
      Throw (TypeError "Cannot read properties of undefined")
  | VElement e =>
      Ok (match textContent e with
          | Some s => VString s
          | None => VNull
          end)
  | VString _ => Ok VUndefined
  end.

(** [v.trim()]: only a string has the method. *)
Definition callTrim (v : value) : outcome value :=
  match v with
  | VString s => Ok (VString (trim s))
  | VUndefined | VNull =>
      Throw (TypeError "Cannot read properties of undefined")
  | VElement _ => Throw (TypeError "trim is not a function")
  end.

(** [v?.k]: the rest of the chain is skipped on a nullish base. *)
Definition optChain (v : value) (k : value -> outcome value) : outcome value :=
  if nullish v then Ok VUndefined else k v.

(** [v || d]. *)
Definition orElse (v d : value) : value :=
  if truthy v then v else d.

(** [cells[i]?.textContent?.trim() || ''] *)
Definition cellField (cells : list element) (i : nat) : outcome value :=
  t <- optChain (index cells i)
         (fun c => tc <- getTextContent c ;; optChain tc callTrim) ;;
  ret (orElse t (VString [])).

(** The object literal of lines 45-52. *)
Definition rowObject (cells : list element) : outcome object :=
  mlsNumber <- cellField cells 0 ;;
  address <- cellField cells 1 ;;
  price <- cellField cells 2 ;;
  beds <- cellField cells 3 ;;
  baths <- cellField cells 4 ;;
  sqft <- cellField cells 5 ;;
  ret [("mlsNumber"%string, mlsNumber); ("address"%string, address);
       ("price"%string, price); ("beds"%string, beds);
       ("baths"%string, baths); ("sqft"%string, sqft)].

(** [xs.forEach(body)], the body updating a mutable [s]. *)
Fixpoint forEach {A S : Type} (xs : list A) (body : A -> S -> outcome S) (s : S)
  : outcome S :=
  match xs with
  | [] => Ok s
  | x :: xs' => s' <- body x s ;; forEach xs' body s'
  end.

(** The body of the [forEach] callback: [data.push] appends at the end. *)
Definition pushRow (row : element) (data : list object) : outcome (list object) :=
  let cells := elementQuerySelectorAll cellSelector row in
  if 0 <? List.length cells
  then obj <- rowObject cells ;; ret (data ++ [obj])
  else ret data.

(** The function passed to [page.evaluate]. *)
Definition rowExtractor (doc : document) : outcome (list object) :=
  let rows := documentQuerySelectorAll resultRowMarker doc in
  let data := [] in
  forEach rows pushRow data.

End RowExtractor.

Arguments value : clear implicits.
Arguments object : clear implicits.

(* ===================================================================== *)
(** * The async function [scrapeMatrixMLS] (lines 3-69) *)
(* ===================================================================== *)

(** The awaited browser calls of the script, by the place they are issued. *)
Inductive site : Type :=
| AtLaunch        (* line 6:  chromium.launch *)
| AtNewPage       (* line 11: browser.newPage *)
| AtGoto          (* line 16: page.goto *)
| AtLoginForm     (* line 19: page.waitForSelector *)
| AtLoginWait     (* line 25: page.waitForTimeout *)
| AtSearchWait    (* line 33: page.waitForTimeout *)
| AtEvaluate      (* line 38: page.evaluate *)
| AtCleanupWait   (* line 66: page.waitForTimeout *)
| AtClose.        (* line 67: browser.close *)

Inductive call : Type :=
| Launch (headless : bool) (slowMo : Z)
| NewPage
| Goto (url : string)
| WaitForSelector (sel : string) (timeout : Z)
| WaitForTimeout (ms : Z)
| Evaluate
| Close.

Section Script.

Context {document element : Type} {dom : DomApi document element}.

(** What an execution leaves behind, in order: console output and the
    browser calls that were issued. *)
Inductive event : Type :=
| ConsoleLog (msg : string)
| ConsoleLogFound (n : nat)
    (* `✅ Found ${properties.length} properties!` *)
| ConsoleLogSample (sample : list (object element))
    (* 'Sample data:', properties.slice(0, 3) *)
| ConsoleError (err : error)
    (* '❌ Error:', error *)
| Await (s : site) (c : call).

(** The environment of one execution: which awaited calls reject, and the
    DOM the page holds when the callback is evaluated. *)
Record world : Type := {
  fault : site -> option error;
  pageDom : document
}.

(** A script computation reads the world, appends to the trace and
    completes normally or by a throw. *)
Definition script (A : Type) : Type :=
  world -> list event -> outcome A * list event.

#[export] Instance Monad_script : Monad script := {
  ret := fun A (a : A) _ t => (Ok a, t);
  bind := fun A B (c : script A) (k : A -> script B) w t =>
            match c w t with
            | (Ok a, t') => k a w t'
            | (Throw e, t') => (Throw e, t')
            end
}.

Definition emit (ev : event) : script unit :=
  fun _ t => (Ok tt, t ++ [ev]).

Definition console_log (msg : string) : script unit := emit (ConsoleLog msg).

Definition console_error (err : error) : script unit := emit (ConsoleError err).

(** [await] of a browser call that returns nothing the script uses. *)
Definition await (s : site) (c : call) : script unit :=
  fun w t =>
    (match fault w s with
     | Some e => Throw e
     | None => Ok tt
     end, t ++ [Await s c]).

(** [await page.evaluate(f)]: the call may reject by itself; otherwise [f]
    runs in the page, and a throw of [f] rejects the call. *)
Definition evaluate {A : Type} (s : site) (f : document -> outcome A) : script A :=
  fun w t =>
    (match fault w s with
     | Some e => Throw e
     | None => f (pageDom w)
     end, t ++ [Await s Evaluate]).

(** [try { body } catch (error) { handler } finally { cleanup }]: the
    cleanup runs after the body or the handler, and its own throw replaces
    the completion of what ran before. *)
Definition tryCatchFinally (body : script unit) (handler : error -> script unit)
  (cleanup : script unit) : script unit :=
  fun w t =>
    let '(r, t1) :=
      match body w t with
      | (Ok a, t') => (Ok a, t')
      | (Throw e, t') => handler e w t'
      end in
    match cleanup w t1 with
    | (Ok _, t2) => (r, t2)
    | (Throw e, t2) => (Throw e, t2)
    end.

(** [properties.slice(0, 3)] *)
Definition slice3 {A : Type} (xs : list A) : list A := firstn 3 xs.

Definition loginUrl : string :=
  "https://matrix.southfloridamls.com/Matrix/Default.aspx".

Definition scrapeMatrixMLS : script unit :=
  console_log "🚀 Starting Matrix MLS scraper..." ;;
  await AtLaunch (Launch false 1000) ;;
  await AtNewPage NewPage ;;
  tryCatchFinally
    (console_log "📍 Going to Matrix login..." ;;
     await AtGoto (Goto loginUrl) ;;
     await AtLoginForm (WaitForSelector "#Username" 10000) ;;
     console_log "🔑 Enter your credentials manually for now..." ;;
     console_log "⏰ You have 30 seconds to log in..." ;;
     await AtLoginWait (WaitForTimeout 30000) ;;
     console_log "🔍 Looking for search options..." ;;
     console_log "📋 Navigate to your property search manually..." ;;
     console_log "⏰ You have 20 seconds..." ;;
     await AtSearchWait (WaitForTimeout 20000) ;;
     console_log "📊 Extracting property data..." ;;
     properties <- evaluate AtEvaluate rowExtractor ;;
     emit (ConsoleLogFound (List.length properties)) ;;
     emit (ConsoleLogSample (slice3 properties)))
    (fun error => console_error error)
    (console_log "🏁 Keeping browser open for 30 seconds..." ;;
     await AtCleanupWait (WaitForTimeout 30000) ;;
     await AtClose Close).

(** One execution, from the empty trace. *)
Definition run (w : world) : outcome unit * list event :=
  scrapeMatrixMLS w [].

Definition trace (w : world) : list event := snd (run w).

(** ** Observations on a trace *)

Definition isWait (c : call) : bool :=
  match c with
  | WaitForSelector _ _ | WaitForTimeout _ => true
  | _ => false
  end.

(** The waits of a trace, in order. *)
Definition waits (t : list event) : list call :=
  flat_map (fun ev => match ev with
                      | Await _ c => if isWait c then [c] else []
                      | _ => []
                      end) t.

(** A wait that only lets a fixed time pass. *)
Definition fixedTimer (c : call) : bool :=
  match c with
  | WaitForTimeout _ => true
  | _ => false
  end.

(** The errors printed by [console.error], in order. *)
Definition printedErrors (t : list event) : list error :=
  flat_map (fun ev => match ev with
                      | ConsoleError e => [e]
                      | _ => []
                      end) t.

(** The result reports of a trace: the count line and the sample line. *)
Definition isReport (ev : event) : bool :=
  match ev with
  | ConsoleLogFound _ | ConsoleLogSample _ => true
  | _ => false
  end.

Definition reports (t : list event) : list event := filter isReport t.

(** How many times the calls issued at site [s] occur in a trace. *)
Definition site_eqb (a b : site) : bool :=
  match a, b with
  | AtLaunch, AtLaunch | AtNewPage, AtNewPage | AtGoto, AtGoto
  | AtLoginForm, AtLoginForm | AtLoginWait, AtLoginWait
  | AtSearchWait, AtSearchWait | AtEvaluate, AtEvaluate
  | AtCleanupWait, AtCleanupWait | AtClose, AtClose => true
  | _, _ => false
  end.

Definition issued (s : site) (t : list event) : nat :=
  List.length (filter (fun ev => match ev with
                                 | Await s' _ => site_eqb s s'
                                 | _ => false
                                 end) t).

(** How many times [browser.close()] is called in a trace. *)
Definition closes (t : list event) : nat :=
  List.length (filter (fun ev => match ev with
                                 | Await _ Close => true
                                 | _ => false
                                 end) t).

(** The steps of the [try] block: navigation, the three waits that precede
    extraction, and extraction, in program order. *)
Definition bodySites : list site :=
  [AtGoto; AtLoginForm; AtLoginWait; AtSearchWait; AtEvaluate].

End Script.

(* ===================================================================== *)
(** * The extraction contract, in the words of the specification *)
(* ===================================================================== *)

Section Contract.

Context {document element : Type} {dom : DomApi document element}.

(** The rows matching the result-row marker, in document order. *)
Definition matchedRows (doc : document) : list element :=
  documentQuerySelectorAll resultRowMarker doc.

(** The [td] cells of a row. *)
Definition cellsOf (row : element) : list element :=
  elementQuerySelectorAll cellSelector row.

Definition hasCells (row : element) : bool :=
  negb (Nat.eqb (List.length (cellsOf row)) 0).

(** "Up to six positional cell values as trimmed text, defaulting missing
    cells to empty string." *)
Definition trimmedText (c : element) : jsstring :=
  match textContent c with
  | Some s => trim s
  | None => []
  end.

Definition cellText (cells : list element) (i : nat) : jsstring :=
  match nth_error cells i with
  | Some c => trimmedText c
  | None => []
  end.

(** PropertyListing: "six string fields (mlsNumber, address, price, beds,
    baths, sqft)". *)
Definition listingKeys : list string :=
  ["mlsNumber"; "address"; "price"; "beds"; "baths"; "sqft"]%string.

Definition listing (f0 f1 f2 f3 f4 f5 : jsstring) : object element :=
  combine listingKeys (map (@VString element) [f0; f1; f2; f3; f4; f5]).

Definition listingOfCells (cells : list element) : object element :=
  listing (cellText cells 0) (cellText cells 1) (cellText cells 2)
          (cellText cells 3) (cellText cells 4) (cellText cells 5).

Definition listingOfRow (row : element) : object element :=
  listingOfCells (cellsOf row).

(** A failure is raised at step [s] of the main path when every step before
    it completed and the call issued at [s] rejects. *)
Definition mainPath : list site :=
  [AtLaunch; AtNewPage] ++ bodySites.

Fixpoint before (s : site) (path : list site) : list site :=
  match path with
  | [] => []
  | x :: rest => if site_eqb s x then [] else x :: before s rest
  end.

Definition raisedAt (w : @world document) (s : site) (e : error) : Prop :=
  In s bodySites /\
  (forall s', In s' (before s mainPath) -> fault w s' = None) /\
  fault w s = Some e.

(** A world where no call rejects, and one where exactly one site does. *)
Definition quiet (doc : document) : world :=
  {| fault := fun _ => None; pageDom := doc |}.

Definition failingAt (s : site) (e : error) (doc : document) : world :=
  {| fault := fun s' => if site_eqb s s' then Some e else None; pageDom := doc |}.

End Contract.

(** ** A scripted implementation

    A test double of the DOM: every element carries the answers it gives,
    among them a [null] text. *)

Module Scripted.

#[warnings="-register-all"]
Inductive stub : Type :=
| Stub (cells : list stub) (text : option jsstring).

Definition stubCells (e : stub) : list stub :=
  match e with Stub cells _ => cells end.

Definition stubText (e : stub) : option jsstring :=
  match e with Stub _ text => text end.

#[export] Instance scriptedDom : DomApi (list stub) stub := {
  documentQuerySelectorAll _ rows := rows;
  elementQuerySelectorAll _ e := stubCells e;
  textContent := stubText
}.

Definition nullCell : stub := Stub [] None.
Definition emptyCell : stub := Stub [] (Some []).

(** One row: a cell whose text is [null], then a cell whose text is empty. *)
Definition rowNullText : stub := Stub [nullCell; emptyCell] None.

(** A row with eight cells. *)
Definition rowEight : stub :=
  Stub (map (fun c => Stub [] (Some [c]))
            [49; 50; 51; 52; 53; 54; 55; 56]%N) None.

End Scripted.

(** ** Sample pages *)

Module Samples.
Import Tree.

Definition td (text : string) : node :=
  Element "td" [] [Text (lit text)].

Definition resultRow (cells : list node) : node :=
  Element "tr" [("class"%string, lit "SearchResultRow odd")] cells.

Definition headerRow (cells : list node) : node :=
  Element "tr" [("class"%string, lit "Header")] cells.

Definition page (rows : list node) : node :=
  Element "html" [] [Element "body" [] [Element "table" [] rows]].

Definition rowSix : node :=
  resultRow [td "M123"; td "1 Main St"; td "$500,000"; td "3"; td "2"; td "1500"].

(** Two cells, the first padded with blanks and a line break. *)
Definition paddedCell : node :=
  Element "td" [] [Text (lit "  A7 "); Element "br" [] []; Text [10%N]].

Definition rowTwoPadded : node :=
  resultRow [paddedCell; td "9 Elm Rd"].

(** A matching row with no [td] at all. *)
Definition rowNoCells : node :=
  resultRow [Element "th" [] [Text (lit "Listings")]].

Definition pageSix : node := page [rowSix].
Definition pageTwoPadded : node := page [rowTwoPadded].
Definition pageNoCells : node := page [rowNoCells].
Definition pageNoMatch : node := page [headerRow [td "MLS #"; td "Address"]].
Definition pageMixed : node := page [headerRow [td "MLS #"]; rowSix; rowNoCells; rowTwoPadded].
Definition pageWithoutGap : node := page [headerRow [td "MLS #"]; rowSix; rowTwoPadded].

Definition timeoutError : error := Error "Timeout 10000ms exceeded.".
Definition closedError : error :=
  Error "Target page, context or browser has been closed".

(** ** Sample worlds *)

(** Extraction rejects: the page was closed under the script. *)
Definition extractionFails : world :=
  failingAt AtEvaluate closedError pageSix.

(** The final wait rejects after a successful main body. *)
Definition cleanupWaitFails : world :=
  failingAt AtCleanupWait closedError pageSix.

(** The login form does not show up within the 10000 ms. *)
Definition loginFormTimesOut : world :=
  failingAt AtLoginForm timeoutError pageSix.

(** The page cannot be created after the browser was launched. *)
Definition newPageFails : world :=
  failingAt AtNewPage closedError pageSix.

(** The operator closes the page while the search is being set up: every
    later call on the page rejects, extraction and the final wait alike. *)
Definition pageClosed : world :=
  {| fault := fun s => match s with
                       | AtEvaluate | AtCleanupWait => Some closedError
                       | _ => None
                       end;
     pageDom := pageSix |}.

End Samples.

(* ===================================================================== *)
(** * Further observations on an execution *)
(* ===================================================================== *)

Section Observations.

Context {document element : Type} {dom : DomApi document element}.

(** The places of the browser calls of a trace, in the order they were
    issued. *)
Definition calls (t : list (@event element)) : list site :=
  flat_map (fun ev => match ev with
                      | Await s _ => [s]
                      | _ => []
                      end) t.

(** The source line of each awaited call. *)
Definition lineOf (s : site) : nat :=
  match s with
  | AtLaunch => 6
  | AtNewPage => 11
  | AtGoto => 16
  | AtLoginForm => 19
  | AtLoginWait => 25
  | AtSearchWait => 33
  | AtEvaluate => 38
  | AtCleanupWait => 66
  | AtClose => 67
  end.

(** The calls of the [finally] block (lines 66-67): [browser.close] is
    reached when the wait before it completes. *)
Definition cleanupCalls (w : @world document) : list site :=
  match fault w AtCleanupWait with
  | None => [AtCleanupWait; AtClose]
  | Some _ => [AtCleanupWait]
  end.

(** How the [finally] block completes. *)
Definition cleanupCompletion (w : @world document) : outcome unit :=
  match fault w AtCleanupWait with
  | Some e => Throw e
  | None =>
      match fault w AtClose with
      | Some e => Throw e
      | None => Ok tt
      end
  end.

(** The calls made before the [try] block is entered (lines 6 and 11). *)
Definition setupSites : list site := [AtLaunch; AtNewPage].

End Observations.

(** A row like [Samples.rowSix], with a seventh and an eighth cell. *)
Definition rowSixAndMore : Tree.node :=
  Samples.resultRow
    [Samples.td "M123"; Samples.td "1 Main St"; Samples.td "$500,000";
     Samples.td "3"; Samples.td "2"; Samples.td "1500";
     Samples.td "Active"; Samples.td "2019"].

(** The two halves of [Samples.pageMixed]. *)
Definition pageFirstHalf : Tree.node :=
  Samples.page [Samples.headerRow [Samples.td "MLS #"]; Samples.rowSix].

Definition pageSecondHalf : Tree.node :=
  Samples.page [Samples.rowNoCells; Samples.rowTwoPadded].

(** The browser cannot be launched. *)
Definition launchFails : @world Tree.node :=
  failingAt AtLaunch (Error "Executable doesn't exist") Samples.pageSix.

(** Navigation is refused. *)
Definition gotoFails : @world Tree.node :=
  failingAt AtGoto (Error "net::ERR_NAME_NOT_RESOLVED") Samples.pageMixed.

(* ===================================================================== *)
(** * Facts about [trim] *)
(* ===================================================================== *)

Lemma trimStart_blank_app (l s : jsstring) :
  blank l -> trimStart (l ++ s) = trimStart s.
Proof.
  induction 1 as [|c l Hc _ IH]; simpl; [reflexivity|].
  now rewrite Hc.
Qed.

Lemma trimStart_blank (l : jsstring) : blank l -> trimStart l = [].
Proof.
  intros Hl. rewrite <- (app_nil_r l). now rewrite trimStart_blank_app.
Qed.

Lemma blank_rev (l : jsstring) : blank l -> blank (rev l).
Proof. unfold blank. apply Forall_rev. Qed.

Lemma rev_cons_last (c : code_unit) (s : jsstring) :
  rev (c :: s) = last (c :: s) c :: rev (removelast (c :: s)).
Proof.
  assert (Hne : c :: s <> []) by discriminate.
  rewrite (app_removelast_last c Hne) at 1.
  rewrite rev_app_distr. reflexivity.
Qed.

Lemma trimEnd_trimmed_app (core r : jsstring) :
  blank r -> trimmed core -> trimEnd (core ++ r) = core.
Proof.
  intros Hr Hcore. unfold trimEnd.
  rewrite rev_app_distr, trimStart_blank_app by now apply blank_rev.
  destruct core as [|c core]; [reflexivity|].
  destruct Hcore as [_ Hlast].
  rewrite rev_cons_last. cbn [trimStart]. rewrite Hlast.
  rewrite <- rev_cons_last. apply rev_involutive.
Qed.

(** [trim] removes exactly the surrounding white space. *)
Lemma trim_spec (l core r : jsstring) :
  blank l -> blank r -> trimmed core -> trim (l ++ core ++ r) = core.
Proof.
  intros Hl Hr Hcore. unfold trim.
  rewrite trimStart_blank_app by assumption.
  destruct core as [|c core].
  - simpl. rewrite trimStart_blank by assumption. reflexivity.
  - destruct Hcore as [Hc Hlast]. cbn [app trimStart]. rewrite Hc.
    change (c :: core ++ r) with ((c :: core) ++ r).
    apply trimEnd_trimmed_app; [assumption | split; assumption].
Qed.

Lemma trim_nil : trim [] = [].
Proof. reflexivity. Qed.

Example trim_inner_blank_kept : trim (lit "  1 Main St ") = lit "1 Main St".
Proof. reflexivity. Qed.

(** A no-break space and a line feed are white space; a letter is not. *)
Example trim_nbsp_newline : trim [160; 10; 97; 160; 13; 10]%N = [97]%N.
Proof. reflexivity. Qed.

Example trim_blank_only : trim [32; 9; 12288]%N = [].
Proof. reflexivity. Qed.

(* ===================================================================== *)
(** * Facts about the page callback *)
(* ===================================================================== *)

Section ExtractorFacts.

Context {document element : Type} {dom : DomApi document element}.

Lemma orElse_string (s : jsstring) :
  orElse (VString s) (VString []) = @VString element s.
Proof. destruct s; reflexivity. Qed.

(** Each field expression evaluates, without a throw, to the cell's trimmed
    text or to the empty string. *)
Lemma cellField_cellText (cells : list element) (i : nat) :
  cellField cells i = Ok (VString (cellText cells i)).
Proof.
  unfold cellField, cellText, trimmedText, index, optChain.
  destruct (nth_error cells i) as [c|]; cbn; [|reflexivity].
  destruct (textContent c) as [s|]; cbn; [|reflexivity].
  now rewrite orElse_string.
Qed.

Lemma rowObject_listing (cells : list element) :
  rowObject cells = Ok (listingOfCells cells).
Proof.
  unfold rowObject. rewrite !cellField_cellText. reflexivity.
Qed.

Lemma hasCells_length (row : element) :
  (0 <? List.length (elementQuerySelectorAll cellSelector row)) = hasCells row.
Proof.
  unfold hasCells, cellsOf.
  destruct (elementQuerySelectorAll cellSelector row); reflexivity.
Qed.

Lemma pushRow_spec (row : element) (data : list (object element)) :
  pushRow row data =
  Ok (if hasCells row then data ++ [listingOfRow row] else data).
Proof.
  unfold pushRow. rewrite hasCells_length.
  destruct (hasCells row); [|reflexivity].
  rewrite rowObject_listing. reflexivity.
Qed.

Lemma forEach_pushRow (rows : list element) (data : list (object element)) :
  forEach rows pushRow data =
  Ok (data ++ map listingOfRow (filter hasCells rows)).
Proof.
  revert data. induction rows as [|row rows IH]; intros data; simpl.
  - now rewrite app_nil_r.
  - rewrite pushRow_spec. destruct (hasCells row); simpl.
    + rewrite IH, <- app_assoc. reflexivity.
    + apply IH.
Qed.

Lemma rowExtractor_spec (doc : document) :
  rowExtractor doc = Ok (map listingOfRow (filter hasCells (matchedRows doc))).
Proof. unfold rowExtractor. now rewrite forEach_pushRow. Qed.

Lemma hasCells_false (row : element) :
  cellsOf row = [] -> hasCells row = false.
Proof. unfold hasCells. now intros ->. Qed.

End ExtractorFacts.

Section FieldFacts.

Context {document element : Type} {dom : DomApi document element}.

Lemma cellText_absent (cells : list element) (i : nat) :
  nth_error cells i = None -> cellText cells i = [].
Proof. unfold cellText. now intros ->. Qed.

Lemma cellText_no_text (cells : list element) (i : nat) (c : element) :
  nth_error cells i = Some c ->
  textContent c = None \/ textContent c = Some [] ->
  cellText cells i = [].
Proof.
  unfold cellText, trimmedText. intros -> [-> | ->]; reflexivity.
Qed.

Lemma cellText_padded (cells : list element) (i : nat) (c : element)
  (l core r : jsstring) :
  nth_error cells i = Some c ->
  textContent c = Some (l ++ core ++ r) ->
  blank l -> blank r -> trimmed core ->
  cellText cells i = core.
Proof.
  unfold cellText, trimmedText. intros -> -> Hl Hr Hcore.
  now apply trim_spec.
Qed.

(** The [i]-th property of a listing is the [i]-th key with the [i]-th cell
    text. *)
Lemma listingOfCells_nth (cells : list element) (i : nat) :
  i < 6 ->
  exists key,
    nth_error listingKeys i = Some key /\
    nth_error (listingOfCells cells) i = Some (key, VString (cellText cells i)).
Proof.
  intros Hi.
  do 6 (destruct i as [|i]; [eexists; split; reflexivity|]).
  lia.
Qed.

Lemma listing_keys (f0 f1 f2 f3 f4 f5 : jsstring) :
  map fst (@listing element f0 f1 f2 f3 f4 f5) = listingKeys.
Proof. reflexivity. Qed.

Lemma listing_values (f0 f1 f2 f3 f4 f5 : jsstring) (key : string)
  (v : value element) :
  In (key, v) (listing f0 f1 f2 f3 f4 f5) -> exists s, v = VString s.
Proof.
  unfold listing, listingKeys. cbn [combine map].
  intros H. repeat (destruct H as [H|H]; [inversion H; eauto|]).
  destruct H.
Qed.

End FieldFacts.

(* ===================================================================== *)
(** * The Row Extractor: claims C1, C3, C4, C5, C8, C9, C10 *)
(* ===================================================================== *)

Section ExtractorClaims.

Context {document element : Type} {dom : DomApi document element}.

(** C1, as amended.  The Row Extractor returns exactly one PropertyListing
    per matched row that has at least one [td] cell, and the records appear
    in the document order of those rows; matched rows without cells
    contribute nothing. *)
Theorem rowExtractor_one_listing_per_row_with_cells (doc : document) :
  exists data,
    rowExtractor doc = Ok data /\
    data = map listingOfRow (filter hasCells (matchedRows doc)) /\
    List.length data = List.length (filter hasCells (matchedRows doc)) /\
    (forall k row,
        nth_error (filter hasCells (matchedRows doc)) k = Some row ->
        nth_error data k = Some (listingOfRow row)).
Proof.
  eexists. split; [apply rowExtractor_spec|].
  split; [reflexivity|]. split.
  - apply length_map.
  - intros k row Hk. now apply map_nth_error.
Qed.

(** C3.  For every matched row from which a record is produced and every
    field position 0..5 of that record: the field is a string; it is empty
    when the cell at that position is absent, or has a null or empty text;
    and when the text is a core surrounded by white space, the field is the
    core. *)
Theorem listing_field_empty_or_trimmed
  (doc : document) (data : list (object element)) (k : nat) (row : element)
  (obj : object element) (i : nat) :
  rowExtractor doc = Ok data ->
  nth_error (filter hasCells (matchedRows doc)) k = Some row ->
  nth_error data k = Some obj ->
  i < 6 ->
  exists key v,
    nth_error listingKeys i = Some key /\
    nth_error obj i = Some (key, VString v) /\
    (nth_error (cellsOf row) i = None -> v = []) /\
    (forall c, nth_error (cellsOf row) i = Some c ->
               textContent c = None \/ textContent c = Some [] -> v = []) /\
    (forall c l core r,
        nth_error (cellsOf row) i = Some c ->
        textContent c = Some (l ++ core ++ r) ->
        blank l -> blank r -> trimmed core -> v = core).
Proof.
  intros Hrun Hrow Hobj Hi.
  rewrite rowExtractor_spec in Hrun. injection Hrun as <-.
  rewrite (map_nth_error listingOfRow _ _ Hrow) in Hobj. injection Hobj as <-.
  destruct (listingOfCells_nth (cellsOf row) Hi) as (key & Hkey & Hnth).
  exists key, (cellText (cellsOf row) i).
  split; [exact Hkey|]. split; [exact Hnth|]. split; [|split].
  - apply cellText_absent.
  - apply cellText_no_text.
  - apply cellText_padded.
Qed.

(** C4, as amended.  A matched row whose six cells have the texts M123,
    1 Main St, $500,000, 3, 2, 1500 yields the record with these six values;
    a matched row with exactly two cells yields the record whose first two
    fields are the trimmed texts of the two cells (the empty string for a
    null text) and whose other four fields are the empty string. *)
Theorem pushRow_examples
  (rowA rowB : element) (c0 c1 : element) (data : list (object element)) :
  map textContent (cellsOf rowA) =
    map (fun s => Some (lit s))
        ["M123"; "1 Main St"; "$500,000"; "3"; "2"; "1500"]%string ->
  cellsOf rowB = [c0; c1] ->
  pushRow rowA data =
    Ok (data ++ [listing (lit "M123") (lit "1 Main St") (lit "$500,000")
                         (lit "3") (lit "2") (lit "1500")]) /\
  pushRow rowB data =
    Ok (data ++ [listing (trimmedText c0) (trimmedText c1) [] [] [] []]).
Proof.
  intros HA HB. rewrite !pushRow_spec. split.
  - unfold hasCells, listingOfRow, listingOfCells, cellText.
    destruct (cellsOf rowA) as [|a0 [|a1 [|a2 [|a3 [|a4 [|a5 [|a6 rest]]]]]]];
      try discriminate HA.
    cbn in HA. injection HA as H0 H1 H2 H3 H4 H5.
    cbn [List.length Nat.eqb negb nth_error]. unfold trimmedText.
    rewrite H0, H1, H2, H3, H4, H5. reflexivity.
  - unfold hasCells, listingOfRow, listingOfCells, cellText. rewrite HB.
    reflexivity.
Qed.

(** C5.  On a page where no element matches the result-row marker the Row
    Extractor completes normally with the empty sequence. *)
Theorem rowExtractor_no_match (doc : document) :
  matchedRows doc = [] -> rowExtractor doc = Ok [].
Proof.
  intros Hnone. rewrite rowExtractor_spec, Hnone. reflexivity.
Qed.

(** C8.  Every record the Row Extractor produces has exactly the six
    properties mlsNumber, address, price, beds, baths, sqft, in this order,
    and the value of each is a string. *)
Theorem listing_six_string_fields
  (doc : document) (data : list (object element)) (obj : object element) :
  rowExtractor doc = Ok data ->
  In obj data ->
  map fst obj = listingKeys /\
  List.length obj = 6 /\
  (forall key v, In (key, v) obj -> exists s, v = VString s).
Proof.
  intros Hrun Hin.
  rewrite rowExtractor_spec in Hrun. injection Hrun as <-.
  apply in_map_iff in Hin. destruct Hin as (row & <- & _).
  split; [apply listing_keys|]. split; [reflexivity|].
  intros key v. apply listing_values.
Qed.

(** C9.  A matched row with zero [td] cells produces no record: the
    callback leaves [data] as it is, and the page yields what it would yield
    without that row. *)
Theorem row_without_cells_is_skipped
  (doc doc' : document) (pre post : list element) (row : element) :
  matchedRows doc = pre ++ row :: post ->
  cellsOf row = [] ->
  matchedRows doc' = pre ++ post ->
  (forall data, pushRow row data = Ok data) /\
  rowExtractor doc = rowExtractor doc' /\
  exists data,
    rowExtractor doc = Ok data /\
    List.length data < List.length (matchedRows doc).
Proof.
  intros Hdoc Hrow Hdoc'.
  pose proof (hasCells_false row Hrow) as Hskip.
  split; [|split].
  - intros data. rewrite pushRow_spec, Hskip. reflexivity.
  - rewrite !rowExtractor_spec, Hdoc, Hdoc', !filter_app. cbn [filter].
    now rewrite Hskip.
  - eexists. split; [apply rowExtractor_spec|].
    rewrite length_map, Hdoc, filter_app. cbn [filter]. rewrite Hskip.
    rewrite !length_app. cbn [List.length].
    pose proof (filter_length_le hasCells pre).
    pose proof (filter_length_le hasCells post). lia.
Qed.

(** C10.  The extraction mapping is total: on every page the Row Extractor
    returns an array and does not throw, whatever the number of cells of a
    row and whether or not a cell has a text; every field expression
    evaluates to a string, the empty one when the cell is out of range or
    its text is null. *)
Theorem rowExtractor_total
  (doc : document) (cells : list element) (i : nat) :
  (exists data, rowExtractor doc = Ok data) /\
  (exists s, cellField cells i = Ok (VString s)) /\
  (nth_error cells i = None -> cellField cells i = Ok (VString [])) /\
  (forall c, nth_error cells i = Some c -> textContent c = None ->
             cellField cells i = Ok (VString [])).
Proof.
  split; [eexists; apply rowExtractor_spec|].
  split; [eexists; apply cellField_cellText|].
  split.
  - intros Hnone. now rewrite cellField_cellText, cellText_absent.
  - intros c Hc Hnull.
    rewrite cellField_cellText, (cellText_no_text _ _ Hc); auto.
Qed.

End ExtractorClaims.

(** ** The Row Extractor on the sample pages *)

Section ExtractorSamples.
Import Tree Samples Scripted.

(** The marker is a case-sensitive substring match on the class attribute
    of a [tr]. *)
Example marker_matches_substring :
  matches resultRowMarker
    (Element "tr" [("class"%string, lit "d-row oddSearchResultsRow")] [])
  = true.
Proof. reflexivity. Qed.

Example marker_is_case_sensitive :
  matches resultRowMarker
    (Element "tr" [("class"%string, lit "searchresult")] [])
  = false.
Proof. reflexivity. Qed.

Example marker_needs_tr :
  matches resultRowMarker
    (Element "div" [("class"%string, lit "SearchResult")] [])
  = false.
Proof. reflexivity. Qed.

Example marker_needs_class :
  matches resultRowMarker
    (Element "tr" [("id"%string, lit "SearchResult")] [])
  = false.
Proof. reflexivity. Qed.

(** Rows come out in document order, the header row left out. *)
Example matchedRows_pageMixed :
  matchedRows pageMixed = [rowSix; rowNoCells; rowTwoPadded].
Proof. reflexivity. Qed.

(** The cells of a row are all its [td] descendants, those of a nested
    table included. *)
Example cells_are_descendants :
  cellsOf (resultRow [td "M1"; Element "td" [] [Element "table" [] [Element "tr" [] [td "x"]]]])
  = [td "M1"; Element "td" [] [Element "table" [] [Element "tr" [] [td "x"]]]; td "x"].
Proof. reflexivity. Qed.

Example textContent_paddedCell :
  textContent paddedCell = Some (lit "  A7 " ++ [10%N]).
Proof. reflexivity. Qed.

(** C1 as stated fails: the page has one matched row, and zero records are
    returned for it. *)
Lemma one_listing_per_matched_row_fails :
  matchedRows pageNoCells = [rowNoCells] /\
  rowExtractor pageNoCells = Ok [] /\
  ~ (exists data,
        rowExtractor pageNoCells = Ok data /\
        List.length data = List.length (matchedRows pageNoCells)).
Proof.
  split; [reflexivity|]. split; [reflexivity|].
  intros (data & Hrun & Hlen).
  change (rowExtractor pageNoCells) with (@Ok (list (object node)) []) in Hrun.
  injection Hrun as <-. discriminate Hlen.
Qed.

Lemma listing_field_empty_or_trimmed_witness :
  nth_error (listingOfRow rowTwoPadded) 0
  = Some ("mlsNumber"%string, VString (lit "A7")) /\
  nth_error (listingOfRow rowTwoPadded) 5
  = Some ("sqft"%string, VString []).
Proof.
  assert (Hrun : rowExtractor pageTwoPadded = Ok [listingOfRow rowTwoPadded])
    by reflexivity.
  assert (Hrow : nth_error (filter hasCells (matchedRows pageTwoPadded)) 0
                 = Some rowTwoPadded) by reflexivity.
  assert (Hobj : nth_error [listingOfRow rowTwoPadded] 0
                 = Some (listingOfRow rowTwoPadded)) by reflexivity.
  split.
  - destruct (listing_field_empty_or_trimmed pageTwoPadded 0 Hrun Hrow Hobj
                (Nat.lt_0_succ 5))
      as (key & v & Hkey & Hnth & _ & _ & Hpad).
    injection Hkey as <-. rewrite Hnth.
    rewrite (Hpad paddedCell (lit "  ") (lit "A7") [32; 10]%N eq_refl eq_refl).
    + reflexivity.
    + repeat constructor.
    + repeat constructor.
    + split; reflexivity.
  - destruct (listing_field_empty_or_trimmed pageTwoPadded 0 Hrun Hrow Hobj
                (le_n 6))
      as (key & v & Hkey & Hnth & Habsent & _).
    injection Hkey as <-. rewrite Hnth, (Habsent eq_refl). reflexivity.
Defined.

(** C4 as stated fails on its second example: the first field is not the
    text of the first cell but that text trimmed. *)
Lemma two_cell_row_is_not_raw_text :
  cellsOf rowTwoPadded = [paddedCell; td "9 Elm Rd"] /\
  textContent paddedCell = Some [32; 32; 65; 55; 32; 10]%N /\
  textContent (td "9 Elm Rd") = Some (lit "9 Elm Rd") /\
  pushRow rowTwoPadded []
  <> Ok [listing [32; 32; 65; 55; 32; 10]%N (lit "9 Elm Rd") [] [] [] []].
Proof.
  repeat (split; [reflexivity|]).
  intros H. vm_compute in H. discriminate H.
Qed.

Lemma pushRow_examples_witness :
  pushRow rowSix []
  = Ok [listing (lit "M123") (lit "1 Main St") (lit "$500,000")
                (lit "3") (lit "2") (lit "1500")] /\
  pushRow rowTwoPadded []
  = Ok [listing (lit "A7") (lit "9 Elm Rd") [] [] [] []].
Proof.
  exact (@pushRow_examples _ _ treeDom rowSix rowTwoPadded
           paddedCell (td "9 Elm Rd") [] eq_refl eq_refl).
Defined.

Lemma rowExtractor_no_match_witness :
  matchedRows pageNoMatch = [] /\ rowExtractor pageNoMatch = Ok [].
Proof.
  split; [reflexivity|].
  exact (@rowExtractor_no_match _ _ treeDom pageNoMatch eq_refl).
Defined.

Lemma listing_six_string_fields_witness :
  map fst (listingOfRow rowSix) = listingKeys /\
  List.length (listingOfRow rowSix) = 6 /\
  (forall key v, In (key, v) (listingOfRow rowSix) -> exists s, v = VString s).
Proof.
  exact (@listing_six_string_fields _ _ treeDom pageSix
           [listingOfRow rowSix] (listingOfRow rowSix)
           eq_refl (or_introl eq_refl)).
Defined.

Lemma row_without_cells_is_skipped_witness :
  (forall data, pushRow rowNoCells data = Ok data) /\
  rowExtractor pageMixed = rowExtractor pageWithoutGap /\
  exists data,
    rowExtractor pageMixed = Ok data /\
    List.length data < List.length (matchedRows pageMixed).
Proof.
  exact (@row_without_cells_is_skipped _ _ treeDom pageMixed pageWithoutGap
           [rowSix] [rowTwoPadded] rowNoCells eq_refl eq_refl eq_refl).
Defined.

Lemma rowExtractor_total_witness :
  (exists data, rowExtractor [rowNullText; rowEight] = Ok data) /\
  cellField (cellsOf rowNullText) 0 = Ok (VString []) /\
  cellField (cellsOf rowEight) 8 = Ok (VString []).
Proof.
  destruct (@rowExtractor_total _ _ scriptedDom
              [rowNullText; rowEight] (cellsOf rowNullText) 0)
    as (Htotal & _ & _ & Hnull).
  destruct (@rowExtractor_total _ _ scriptedDom
              [rowNullText; rowEight] (cellsOf rowEight) 8)
    as (_ & _ & Hrange & _).
  split; [exact Htotal|]. split.
  - exact (Hnull nullCell eq_refl eq_refl).
  - exact (Hrange eq_refl).
Defined.

End ExtractorSamples.

(* ===================================================================== *)
(** * The script: claims C2, C6, C7 *)
(* ===================================================================== *)

(** Unfold the script down to the case analysis on the rejecting calls. *)
Ltac unfold_script :=
  unfold trace, run, scrapeMatrixMLS, tryCatchFinally, await, evaluate,
    console_log, console_error, emit;
  cbn -[rowExtractor]; rewrite ?rowExtractor_spec.

(** Decide one awaited call after the other, along the control flow. *)
Ltac decide_faults w :=
  repeat match goal with
         | H : fault w ?s = _ |- context [fault w ?s] => rewrite H; cbn
         | |- context [fault w ?s] => destruct (fault w s) eqn:?; cbn
         end.

Lemma rev_two_last {A : Type} (l t : list A) (a b : A) :
  rev l = b :: a :: t -> l = rev t ++ [a; b].
Proof.
  intros H. rewrite <- (rev_involutive l), H. cbn [rev].
  now rewrite <- app_assoc.
Qed.

Section ScriptClaims.

Context {document element : Type} {dom : DomApi document element}.

Lemma closes_at_most_once (w : @world document) : closes (trace w) <= 1.
Proof.
  unfold_script. decide_faults w; cbn; lia.
Qed.

(** C2, as amended.  In every execution the waits are, in order, at most one
    event-driven wait for the selector #Username (with a 10000 ms timeout)
    followed only by fixed-duration timers of 30000 or 20000 ms. *)
Theorem waits_are_timers_after_login_form (w : @world document) :
  exists timers,
    (waits (trace w) = timers \/
     waits (trace w) = WaitForSelector "#Username" 10000 :: timers) /\
    (forall c, In c timers ->
               fixedTimer c = true /\
               (c = WaitForTimeout 30000 \/ c = WaitForTimeout 20000)).
Proof.
  unfold_script.
  decide_faults w;
    (eexists; split; [first [right; reflexivity | left; reflexivity]|];
     cbn; intros c Hc;
     repeat (destruct Hc as [<-|Hc]; [split; [reflexivity|auto]|]);
     solve [destruct Hc]).
Qed.

(** C6.  A failure raised in the main body, whether during navigation, one
    of the waits before extraction, or extraction, is printed by exactly one
    [console.error] and does not escape the [try]: the completion of the
    script is that of the cleanup; and no result report (count or sample)
    is printed. *)
Theorem body_failure_caught_once_and_nothing_reported
  (w : @world document) (s : site) (e : error) :
  raisedAt w s e ->
  issued s (trace w) = 1 /\
  printedErrors (trace w) = [e] /\
  reports (trace w) = [] /\
  fst (run w) =
    match fault w AtCleanupWait with
    | Some e' => Throw e'
    | None => match fault w AtClose with
              | Some e' => Throw e'
              | None => Ok tt
              end
    end.
Proof.
  intros (Hs & Hbefore & Hraise).
  cbn in Hs.
  repeat (destruct Hs as [<-|Hs];
          [ cbn in Hbefore;
            try assert (fault w AtLaunch = None) by (apply Hbefore; auto 10);
            try assert (fault w AtNewPage = None) by (apply Hbefore; auto 10);
            try assert (fault w AtGoto = None) by (apply Hbefore; auto 10);
            try assert (fault w AtLoginForm = None) by (apply Hbefore; auto 10);
            try assert (fault w AtLoginWait = None) by (apply Hbefore; auto 10);
            try assert (fault w AtSearchWait = None) by (apply Hbefore; auto 10)
          |]);
    [..| destruct Hs];
    unfold_script; decide_faults w; repeat split; reflexivity.
Qed.

(** How far the [finally] block carries the release of the browser.  In
    every execution in which the browser is launched and the page created,
    whether the main body succeeds or any of its steps throws, the cleanup
    is entered exactly once: the final wait is issued exactly once and the
    browser is closed at most once; and when the final wait completes, the
    browser is closed exactly once, as the last action of the script. *)
Theorem cleanup_runs_once_after_page_creation (w : @world document) :
  fault w AtLaunch = None ->
  fault w AtNewPage = None ->
  issued AtCleanupWait (trace w) = 1 /\
  closes (trace w) <= 1 /\
  (fault w AtCleanupWait = None ->
   closes (trace w) = 1 /\
   issued AtClose (trace w) = 1 /\
   exists t,
     trace w = t ++ [Await AtCleanupWait (WaitForTimeout 30000);
                     Await AtClose Close]).
Proof.
  intros Hlaunch Hpage.
  split; [|split; [apply closes_at_most_once|]].
  - unfold_script. decide_faults w; reflexivity.
  - intros Hwait. split; [|split].
    + unfold_script. decide_faults w; reflexivity.
    + unfold_script. decide_faults w; reflexivity.
    + unfold_script.
      decide_faults w; eexists; apply rev_two_last; reflexivity.
Qed.

End ScriptClaims.

(** ** The script in sample worlds *)

Section ScriptSamples.
Import Tree Samples.

(** C2 as stated fails: with no call rejecting, the first wait of the
    script is the wait for the selector #Username, not a timer. *)
Lemma every_wait_is_a_timer_fails :
  waits (trace (quiet pageSix))
  = [WaitForSelector "#Username" 10000; WaitForTimeout 30000;
     WaitForTimeout 20000; WaitForTimeout 30000] /\
  ~ (forall c, In c (waits (trace (quiet pageSix))) -> fixedTimer c = true).
Proof.
  split; [reflexivity|].
  intros Hall.
  specialize (Hall (WaitForSelector "#Username" 10000) (or_introl eq_refl)).
  discriminate Hall.
Qed.

(** A timeout on the login form skips the rest of the body: the error is
    printed, then the cleanup runs. *)
Example run_loginFormTimesOut :
  run loginFormTimesOut =
  (Ok tt,
   [ConsoleLog "🚀 Starting Matrix MLS scraper...";
    Await AtLaunch (Launch false 1000);
    Await AtNewPage NewPage;
    ConsoleLog "📍 Going to Matrix login...";
    Await AtGoto (Goto loginUrl);
    Await AtLoginForm (WaitForSelector "#Username" 10000);
    ConsoleError timeoutError;
    ConsoleLog "🏁 Keeping browser open for 30 seconds...";
    Await AtCleanupWait (WaitForTimeout 30000);
    Await AtClose Close]).
Proof. reflexivity. Qed.

(** With no call rejecting, the count and a sample of at most three records
    are printed before the cleanup. *)
Example reports_quiet_pageMixed :
  reports (trace (quiet pageMixed))
  = [ConsoleLogFound 2;
     ConsoleLogSample [listingOfRow rowSix; listingOfRow rowTwoPadded]].
Proof. reflexivity. Qed.

Lemma extractionFails_raised : raisedAt extractionFails AtEvaluate closedError.
Proof.
  split; [cbn; auto 10|]. split; [|reflexivity].
  intros s' Hin. cbn in Hin.
  repeat (destruct Hin as [<-|Hin]; [reflexivity|]). destruct Hin.
Defined.

Lemma body_failure_caught_once_witness :
  issued AtEvaluate (trace extractionFails) = 1 /\
  printedErrors (trace extractionFails) = [closedError] /\
  reports (trace extractionFails) = [] /\
  fst (run extractionFails) = Ok tt.
Proof.
  exact (body_failure_caught_once_and_nothing_reported extractionFails_raised).
Defined.

(** C7.  The release of the browser is not unconditional, although the
    [finally] block is there to make it so: [browser.close()] stands behind
    an awaited wait on the page, and [browser.newPage()] stands before the
    [try].  When the final wait rejects, after a successful body or after a
    failed extraction on a closed page, and when the page cannot be created,
    the browser that was launched is never closed. *)
Lemma cleanup_is_not_unconditional :
  (issued AtLaunch (trace cleanupWaitFails) = 1 /\
   closes (trace cleanupWaitFails) = 0) /\
  (issued AtLaunch (trace pageClosed) = 1 /\
   issued AtEvaluate (trace pageClosed) = 1 /\
   printedErrors (trace pageClosed) = [closedError] /\
   issued AtCleanupWait (trace pageClosed) = 1 /\
   closes (trace pageClosed) = 0 /\
   fst (run pageClosed) = Throw closedError) /\
  (issued AtLaunch (trace newPageFails) = 1 /\
   issued AtCleanupWait (trace newPageFails) = 0 /\
   closes (trace newPageFails) = 0) /\
  ~ (forall w : @world node, closes (trace w) = 1).
Proof.
  split; [split; reflexivity|].
  split; [repeat split; reflexivity|].
  split; [repeat split; reflexivity|].
  intros Hall. specialize (Hall cleanupWaitFails). discriminate Hall.
Qed.

Lemma cleanup_runs_once_witness :
  issued AtCleanupWait (trace extractionFails) = 1 /\
  closes (trace extractionFails) = 1 /\
  exists t,
    trace extractionFails
    = t ++ [Await AtCleanupWait (WaitForTimeout 30000); Await AtClose Close].
Proof.
  destruct (@cleanup_runs_once_after_page_creation _ _ treeDom
              extractionFails eq_refl eq_refl) as (Hwait & _ & Hclose).
  destruct (Hclose eq_refl) as (Hone & _ & Hlast).
  split; [exact Hwait|]. split; [exact Hone | exact Hlast].
Defined.

End ScriptSamples.

(* ===================================================================== *)
(** * Beyond the claims: what [trim] keeps *)
(* ===================================================================== *)

Lemma trimStart_split (s : jsstring) :
  exists l, s = l ++ trimStart s /\ blank l.
Proof.
  induction s as [|c s (l & Hs & Hl)]; simpl.
  - exists []. split; [reflexivity | constructor].
  - destruct (isWhiteSpace c) eqn:Hc.
    + exists (c :: l). split; [simpl; congruence | now constructor].
    + exists []. split; [reflexivity | constructor].
Qed.

Lemma trimStart_head (s : jsstring) (c : code_unit) (t : jsstring) :
  trimStart s = c :: t -> isWhiteSpace c = false.
Proof.
  induction s as [|a s IH]; simpl; [discriminate|].
  destruct (isWhiteSpace a) eqn:Ha; [exact IH|].
  intros H. injection H as <- _. exact Ha.
Qed.

Lemma trimEnd_split (s : jsstring) :
  exists r, s = trimEnd s ++ r /\ blank r.
Proof.
  destruct (trimStart_split (rev s)) as (l & Hs & Hl).
  exists (rev l). split; [|now apply blank_rev].
  unfold trimEnd. rewrite <- rev_app_distr, <- Hs. symmetry. apply rev_involutive.
Qed.

Lemma trimEnd_last (s : jsstring) (c : code_unit) (t : jsstring) :
  trimEnd s = c :: t -> isWhiteSpace (last (c :: t) c) = false.
Proof.
  unfold trimEnd. intros H.
  destruct (trimStart (rev s)) as [|a u] eqn:Hu; [discriminate H|].
  rewrite <- H. cbn [rev]. rewrite last_last.
  exact (trimStart_head _ Hu).
Qed.

Lemma trimEnd_head (s : jsstring) (c : code_unit) (t : jsstring) :
  trimEnd s = c :: t ->
  match s with
  | [] => True
  | a :: _ => a = c
  end.
Proof.
  intros H. destruct (trimEnd_split s) as (r & Hs & _).
  rewrite H in Hs. destruct s; [exact I|].
  now injection Hs.
Qed.

Lemma trimmed_trim (s : jsstring) : trimmed (trim s).
Proof.
  unfold trim. destruct (trimEnd (trimStart s)) as [|c t] eqn:Ht; [exact I|].
  split; [|exact (trimEnd_last _ Ht)].
  pose proof (trimEnd_head _ Ht) as Hhead.
  destruct (trimStart s) as [|a u] eqn:Hu; [discriminate Ht|].
  subst a. exact (trimStart_head _ Hu).
Qed.

(** [trim] drops white space at the two ends and nothing else: the result
    is a contiguous part of the string, the dropped ends are blank, and the
    result neither starts nor ends with white space. *)
Theorem trim_split (s : jsstring) :
  exists l r,
    s = l ++ trim s ++ r /\ blank l /\ blank r /\ trimmed (trim s).
Proof.
  destruct (trimStart_split s) as (l & Hs & Hl).
  destruct (trimEnd_split (trimStart s)) as (r & Hu & Hr).
  exists l, r. repeat split; try assumption.
  - unfold trim. now rewrite <- Hu.
  - apply trimmed_trim.
Qed.

(** Trimming twice is trimming once. *)
Lemma trim_idempotent (s : jsstring) : trim (trim s) = trim s.
Proof.
  rewrite <- (app_nil_r (trim s)) at 1.
  change (trim s ++ []) with ([] ++ trim s ++ []).
  apply trim_spec; [constructor | constructor | apply trimmed_trim].
Qed.

(* ===================================================================== *)
(** * Beyond the claims: the page callback *)
(* ===================================================================== *)

Section ExtractorMore.

Context {document element : Type} {dom : DomApi document element}.

Lemma trimmedText_trimmed (c : element) : trimmed (trimmedText c).
Proof.
  unfold trimmedText. destruct (textContent c); [apply trimmed_trim | exact I].
Qed.

Lemma cellText_trimmed (cells : list element) (i : nat) :
  trimmed (cellText cells i).
Proof.
  unfold cellText.
  destruct (nth_error cells i); [apply trimmedText_trimmed | exact I].
Qed.

Lemma listing_strings (f0 f1 f2 f3 f4 f5 : jsstring) (key : string)
  (v : jsstring) :
  In (key, VString v) (@listing element f0 f1 f2 f3 f4 f5) ->
  In v [f0; f1; f2; f3; f4; f5].
Proof.
  unfold listing, listingKeys. cbn [combine map].
  intros H.
  repeat (destruct H as [H|H]; [injection H as _ <-; cbn; auto 10|]).
  destruct H.
Qed.

(** X1.  No field of a record starts or ends with white space. *)
Theorem listing_fields_are_trimmed
  (doc : document) (data : list (object element)) (obj : object element)
  (key : string) (v : jsstring) :
  rowExtractor doc = Ok data ->
  In obj data ->
  In (key, VString v) obj ->
  trimmed v.
Proof.
  intros Hrun Hobj Hv.
  rewrite rowExtractor_spec in Hrun. injection Hrun as <-.
  apply in_map_iff in Hobj. destruct Hobj as (row & <- & _).
  apply listing_strings in Hv. cbn in Hv.
  repeat (destruct Hv as [<-|Hv]; [apply cellText_trimmed|]).
  destruct Hv.
Qed.

(** X2.  A field is a contiguous part of the text of its cell: only white space
    at the two ends of the text is dropped. *)
Theorem listing_field_is_part_of_text
  (doc : document) (data : list (object element)) (k : nat) (row : element)
  (obj : object element) (i : nat) (c : element) (s : jsstring) :
  rowExtractor doc = Ok data ->
  nth_error (filter hasCells (matchedRows doc)) k = Some row ->
  nth_error data k = Some obj ->
  i < 6 ->
  nth_error (cellsOf row) i = Some c ->
  textContent c = Some s ->
  exists key v l r,
    nth_error obj i = Some (key, VString v) /\
    s = l ++ v ++ r /\ blank l /\ blank r.
Proof.
  intros Hrun Hrow Hobj Hi Hc Hs.
  rewrite rowExtractor_spec in Hrun. injection Hrun as <-.
  rewrite (map_nth_error listingOfRow _ _ Hrow) in Hobj. injection Hobj as <-.
  destruct (listingOfCells_nth (cellsOf row) Hi) as (key & _ & Hnth).
  destruct (trim_split s) as (l & r & Hsplit & Hl & Hr & _).
  exists key, (trim s), l, r.
  split; [|auto].
  unfold listingOfRow. rewrite Hnth. unfold cellText, trimmedText.
  now rewrite Hc, Hs.
Qed.

Lemma cellText_firstn (cells : list element) (i : nat) :
  i < 6 -> cellText (firstn 6 cells) i = cellText cells i.
Proof.
  intros Hi. unfold cellText. rewrite nth_error_firstn.
  destruct (Nat.ltb_spec i 6); [reflexivity | lia].
Qed.

Lemma listingOfCells_firstn (cells : list element) :
  listingOfCells (firstn 6 cells) = listingOfCells cells.
Proof.
  unfold listingOfCells. now rewrite !cellText_firstn by lia.
Qed.

(** X3.  The record of a row depends on its first six cells only: cells after the
    sixth never reach the output. *)
Theorem pushRow_reads_six_cells
  (r1 r2 : element) (data : list (object element)) :
  firstn 6 (cellsOf r1) = firstn 6 (cellsOf r2) ->
  pushRow r1 data = pushRow r2 data.
Proof.
  intros Hsix. rewrite !pushRow_spec.
  assert (Hcells : hasCells r1 = hasCells r2).
  { unfold hasCells.
    destruct (cellsOf r1), (cellsOf r2); try reflexivity; discriminate Hsix. }
  rewrite Hcells. destruct (hasCells r2); [|reflexivity].
  unfold listingOfRow.
  rewrite <- (listingOfCells_firstn (cellsOf r1)), Hsix, listingOfCells_firstn.
  reflexivity.
Qed.

Lemma filter_length_all {A : Type} (f : A -> bool) (l : list A) :
  List.length (filter f l) = List.length l <->
  (forall x, In x l -> f x = true).
Proof.
  induction l as [|a l IH]; simpl.
  - split; [intros _ x [] | reflexivity].
  - pose proof (filter_length_le f l) as Hle.
    destruct (f a) eqn:Ha; simpl.
    + split.
      * intros H x [<-|Hx]; [exact Ha|]. apply IH; [lia | exact Hx].
      * intros H. f_equal. apply IH. intros x Hx. apply H. now right.
    + split; [lia|].
      intros H. specialize (H a (or_introl eq_refl)). congruence.
Qed.

Lemma hasCells_true (row : element) :
  hasCells row = true <-> cellsOf row <> [].
Proof.
  unfold hasCells. destruct (cellsOf row); simpl.
  - split; [discriminate | congruence].
  - split; [discriminate | reflexivity].
Qed.

(** X4.  There are never more records than matched rows, and there is one record
    per matched row exactly when every matched row has a [td] cell. *)
Theorem rowExtractor_count (doc : document) :
  exists data,
    rowExtractor doc = Ok data /\
    List.length data <= List.length (matchedRows doc) /\
    (List.length data = List.length (matchedRows doc) <->
     forall row, In row (matchedRows doc) -> cellsOf row <> []).
Proof.
  eexists. split; [apply rowExtractor_spec|].
  rewrite length_map. split; [apply filter_length_le|].
  rewrite filter_length_all.
  split; intros H row Hrow; apply hasCells_true; auto.
Qed.

(** X5.  Rows contribute independently of each other: when the matched rows of a
    page are those of two pages one after the other, its records are the
    records of the first page followed by those of the second. *)
Theorem rowExtractor_app (doc doc1 doc2 : document) :
  matchedRows doc = matchedRows doc1 ++ matchedRows doc2 ->
  exists data1 data2,
    rowExtractor doc1 = Ok data1 /\
    rowExtractor doc2 = Ok data2 /\
    rowExtractor doc = Ok (data1 ++ data2).
Proof.
  intros Hrows. do 2 eexists.
  split; [apply rowExtractor_spec|]. split; [apply rowExtractor_spec|].
  now rewrite rowExtractor_spec, Hrows, filter_app, map_app.
Qed.

End ExtractorMore.

(** ** The result-row marker on the tree implementation *)

Lemma isPrefix_spec (p s : jsstring) :
  isPrefix p s = true <-> exists post, s = p ++ post.
Proof.
  revert s. induction p as [|a p IH]; intros s; simpl.
  - split; [intros _; now exists s | reflexivity].
  - destruct s as [|b s].
    + split; [discriminate | intros (post & H); discriminate H].
    + rewrite andb_true_iff, N.eqb_eq, IH. split.
      * intros (-> & post & ->). now exists post.
      * intros (post & H). injection H as -> ->. split; [reflexivity|].
        now exists post.
Qed.

Lemma includes_spec (needle hay : jsstring) :
  includes needle hay = true <->
  exists pre post, hay = pre ++ needle ++ post.
Proof.
  induction hay as [|b hay IH].
  - simpl. rewrite orb_false_r, isPrefix_spec. split.
    + intros (post & H). now exists [], post.
    + intros (pre & post & H). symmetry in H.
      apply app_eq_nil in H. destruct H as (-> & H).
      exists post. now rewrite H.
  - cbn [includes]. rewrite orb_true_iff, isPrefix_spec, IH. split.
    + intros [(post & H) | (pre & post & H)].
      * now exists [], post.
      * exists (b :: pre), post. now rewrite H.
    + intros (pre & post & H). destruct pre as [|c pre].
      * left. now exists post.
      * right. injection H as _ H. now exists pre, post.
Qed.

(** X6.  On the tree implementation an element carries the result-row marker
    exactly when it is a [tr] whose class attribute has SearchResult
    somewhere in its value, whatever stands before and after it. *)
Theorem marker_is_substring_of_class
  (tag : string) (attrs : list (string * jsstring))
  (children : list Tree.node) :
  Tree.matches resultRowMarker (Tree.Element tag attrs children) = true <->
  tag = "tr"%string /\
  exists pre post,
    Tree.getAttribute "class" attrs
    = Some (pre ++ lit "SearchResult" ++ post).
Proof.
  unfold Tree.matches, resultRowMarker.
  rewrite andb_true_iff, String.eqb_eq.
  destruct (Tree.getAttribute "class" attrs) as [x|].
  - change (lit "SearchResult") with (83%N :: lit "earchResult").
    cbv iota. rewrite includes_spec. split.
    + intros (<- & pre & post & ->). split; [reflexivity|]. now exists pre, post.
    + intros (-> & pre & post & H). injection H as ->.
      split; [reflexivity|]. now exists pre, post.
  - split.
    + intros (_ & H). discriminate H.
    + intros (_ & pre & post & H). discriminate H.
Qed.

(* ===================================================================== *)
(** * Beyond the claims: the control flow of the script *)
(* ===================================================================== *)

(** Turn the premise on the steps before a failure into one fact per call. *)
Ltac note_completed H w :=
  cbn in H;
  try assert (fault w AtLaunch = None) by (apply H; auto 10);
  try assert (fault w AtNewPage = None) by (apply H; auto 10);
  try assert (fault w AtGoto = None) by (apply H; auto 10);
  try assert (fault w AtLoginForm = None) by (apply H; auto 10);
  try assert (fault w AtLoginWait = None) by (apply H; auto 10);
  try assert (fault w AtSearchWait = None) by (apply H; auto 10);
  try assert (fault w AtEvaluate = None) by (apply H; auto 10).

(** A call that rejected contradicts the premise [H] that it completed. *)
Ltac refute_fault H w :=
  match goal with
  | Hq : fault w ?s = Some _ |- _ =>
      rewrite H in Hq by auto 10; discriminate Hq
  end.

Section ScriptMore.

Context {document element : Type} {dom : DomApi document element}.

(** X7.  When no call of the main path rejects, the script issues every call
    once, in program order, prints no error, and reports the number of
    records followed by a sample: the first three records, or all of them
    when there are fewer. *)
Theorem success_reports_count_and_sample (w : @world document) :
  (forall s, In s mainPath -> fault w s = None) ->
  exists data,
    rowExtractor (pageDom w) = Ok data /\
    reports (trace w)
    = [ConsoleLogFound (List.length data); ConsoleLogSample (firstn 3 data)] /\
    List.length (firstn 3 data) = Nat.min 3 (List.length data) /\
    printedErrors (trace w) = [] /\
    calls (trace w) = mainPath ++ cleanupCalls w.
Proof.
  intros Hok. note_completed Hok w.
  exists (map listingOfRow (filter hasCells (matchedRows (pageDom w)))).
  split; [apply rowExtractor_spec|].
  split; [|split; [apply length_firstn|]].
  - unfold_script. decide_faults w; reflexivity.
  - unfold cleanupCalls. unfold_script.
    decide_faults w; split; reflexivity.
Qed.

(** X8.  Once the page exists, an execution prints either the two report lines
    or exactly one error, never both and never neither. *)
Theorem report_or_error_never_both (w : @world document) :
  fault w AtLaunch = None ->
  fault w AtNewPage = None ->
  (printedErrors (trace w) = [] /\
   exists n sample,
     reports (trace w) = [ConsoleLogFound n; ConsoleLogSample sample]) \/
  (exists e, printedErrors (trace w) = [e] /\ reports (trace w) = []).
Proof.
  intros Hlaunch Hpage. unfold_script.
  decide_faults w;
    first [ left; split; [reflexivity | do 2 eexists; reflexivity]
          | right; eexists; split; reflexivity ].
Qed.

(** X9.  A rejection of [chromium.launch] or of [browser.newPage] is outside the
    [try]: it is not printed, no later call is issued, the browser is not
    closed, and the script completes with that error. *)
Theorem setup_failure_escapes (w : @world document) (s : site) (e : error) :
  In s setupSites ->
  (forall s', In s' (before s mainPath) -> fault w s' = None) ->
  fault w s = Some e ->
  fst (run w) = Throw e /\
  calls (trace w) = before s mainPath ++ [s] /\
  printedErrors (trace w) = [] /\
  reports (trace w) = [] /\
  closes (trace w) = 0.
Proof.
  intros Hs Hbefore Hraise. cbn in Hs.
  destruct Hs as [<-|[<-|[]]]; note_completed Hbefore w;
    unfold_script; decide_faults w; repeat split; reflexivity.
Qed.

(** X10.  Once the page exists, the script completes as its cleanup does,
    whatever happened in the main body; and the browser is closed exactly
    when the final wait completes. *)
Theorem completion_is_that_of_cleanup (w : @world document) :
  fault w AtLaunch = None ->
  fault w AtNewPage = None ->
  fst (run w) = cleanupCompletion w /\
  closes (trace w) = match fault w AtCleanupWait with
                     | None => 1
                     | Some _ => 0
                     end.
Proof.
  intros Hlaunch Hpage. unfold cleanupCompletion. unfold_script.
  decide_faults w; split; reflexivity.
Qed.

(** X11.  A failure in the main body skips the rest of the body: the calls issued
    are those before the failing one, the failing one, and the cleanup. *)
Theorem body_failure_skips_to_cleanup
  (w : @world document) (s : site) (e : error) :
  raisedAt w s e ->
  calls (trace w) = before s mainPath ++ s :: cleanupCalls w.
Proof.
  intros (Hs & Hbefore & Hraise). unfold cleanupCalls. cbn in Hs.
  repeat (destruct Hs as [<-|Hs]; [note_completed Hbefore w|]);
    [..| destruct Hs];
    unfold_script; decide_faults w; reflexivity.
Qed.

(** X12.  In every execution the browser calls are issued in the order of their
    source lines, each at most once: nothing is retried or repeated. *)
Theorem calls_in_program_order (w : @world document) :
  StronglySorted lt (map lineOf (calls (trace w))).
Proof.
  unfold_script.
  decide_faults w;
    repeat first [ apply SSorted_nil | apply SSorted_cons
                 | apply Forall_nil | apply Forall_cons
                 | unfold lineOf; lia ].
Qed.

(** X13.  The callback is evaluated at most once, and it is evaluated exactly
    when the launch, the page creation, the navigation, the wait for the
    login form and the two operator waits have all completed. *)
Theorem evaluate_only_after_the_waits (w : @world document) :
  issued AtEvaluate (trace w) <= 1 /\
  (issued AtEvaluate (trace w) = 1 <->
   forall s, In s (before AtEvaluate mainPath) -> fault w s = None).
Proof.
  unfold_script.
  decide_faults w; (split; [cbn; lia|]); cbn; split;
    try reflexivity; try discriminate.
  all: try (intros _ s Hs;
            repeat (destruct Hs as [<-|Hs]; [assumption|]); destruct Hs).
  all: intros Hall; refute_fault Hall w.
Qed.

End ScriptMore.

(** ** On the sample pages and worlds *)

Section MoreSamples.
Import Tree Samples.

Lemma listing_fields_are_trimmed_witness : trimmed (lit "A7").
Proof.
  assert (Hrun : rowExtractor pageTwoPadded = Ok [listingOfRow rowTwoPadded])
    by reflexivity.
  assert (Hobj : In (listingOfRow rowTwoPadded) [listingOfRow rowTwoPadded])
    by (left; reflexivity).
  assert (Hv : In ("mlsNumber"%string, VString (lit "A7"))
                  (listingOfRow rowTwoPadded)) by (left; reflexivity).
  exact (@listing_fields_are_trimmed _ _ treeDom pageTwoPadded _ _ _ _
           Hrun Hobj Hv).
Defined.

Lemma listing_field_is_part_of_text_witness :
  exists key v l r,
    nth_error (listingOfRow rowTwoPadded) 0 = Some (key, VString v) /\
    lit "  A7 " ++ [10%N] = l ++ v ++ r /\ blank l /\ blank r.
Proof.
  assert (Hrun : rowExtractor pageTwoPadded = Ok [listingOfRow rowTwoPadded])
    by reflexivity.
  assert (Hrow : nth_error (filter hasCells (matchedRows pageTwoPadded)) 0
                 = Some rowTwoPadded) by reflexivity.
  assert (Hobj : nth_error [listingOfRow rowTwoPadded] 0
                 = Some (listingOfRow rowTwoPadded)) by reflexivity.
  assert (Hcell : nth_error (cellsOf rowTwoPadded) 0 = Some paddedCell)
    by reflexivity.
  assert (Htext : textContent paddedCell = Some (lit "  A7 " ++ [10%N]))
    by reflexivity.
  exact (@listing_field_is_part_of_text _ _ treeDom pageTwoPadded _ 0 _ _ 0
           _ _ Hrun Hrow Hobj (Nat.lt_0_succ 5) Hcell Htext).
Defined.

Lemma pushRow_reads_six_cells_witness :
  pushRow rowSix [] = pushRow rowSixAndMore [].
Proof.
  assert (Hsix : firstn 6 (cellsOf rowSix) = firstn 6 (cellsOf rowSixAndMore))
    by reflexivity.
  exact (@pushRow_reads_six_cells _ _ treeDom rowSix rowSixAndMore [] Hsix).
Defined.

Lemma rowExtractor_app_witness :
  exists data1 data2,
    rowExtractor pageFirstHalf = Ok data1 /\
    rowExtractor pageSecondHalf = Ok data2 /\
    rowExtractor pageMixed = Ok (data1 ++ data2).
Proof.
  assert (Hrows : matchedRows pageMixed
                  = matchedRows pageFirstHalf ++ matchedRows pageSecondHalf)
    by reflexivity.
  exact (@rowExtractor_app _ _ treeDom pageMixed pageFirstHalf pageSecondHalf
           Hrows).
Defined.

Lemma quiet_completes (doc : node) (s : site) :
  In s mainPath -> fault (quiet doc) s = None.
Proof. reflexivity. Defined.

Lemma success_reports_count_and_sample_witness :
  exists data,
    rowExtractor pageMixed = Ok data /\
    reports (trace (quiet pageMixed))
    = [ConsoleLogFound (List.length data); ConsoleLogSample (firstn 3 data)] /\
    List.length (firstn 3 data) = Nat.min 3 (List.length data) /\
    printedErrors (trace (quiet pageMixed)) = [] /\
    calls (trace (quiet pageMixed))
    = [AtLaunch; AtNewPage; AtGoto; AtLoginForm; AtLoginWait; AtSearchWait;
       AtEvaluate; AtCleanupWait; AtClose].
Proof.
  exact (@success_reports_count_and_sample _ _ treeDom (quiet pageMixed)
           (quiet_completes pageMixed)).
Defined.

Lemma report_or_error_never_both_witness :
  (printedErrors (trace extractionFails) = [] /\
   exists n sample,
     reports (trace extractionFails)
     = [ConsoleLogFound n; ConsoleLogSample sample]) \/
  (exists e, printedErrors (trace extractionFails) = [e] /\
             reports (trace extractionFails) = []).
Proof.
  exact (@report_or_error_never_both _ _ treeDom extractionFails
           eq_refl eq_refl).
Defined.

Lemma newPageFails_before (s' : site) :
  In s' (before AtNewPage mainPath) -> fault newPageFails s' = None.
Proof.
  cbn. intros [<-|[]]. reflexivity.
Defined.

Lemma setup_failure_escapes_witness :
  fst (run newPageFails) = Throw closedError /\
  calls (trace newPageFails) = [AtLaunch; AtNewPage] /\
  printedErrors (trace newPageFails) = [] /\
  reports (trace newPageFails) = [] /\
  closes (trace newPageFails) = 0.
Proof.
  exact (@setup_failure_escapes _ _ treeDom newPageFails AtNewPage closedError
           (or_intror (or_introl eq_refl)) newPageFails_before eq_refl).
Defined.

Lemma completion_is_that_of_cleanup_witness :
  fst (run cleanupWaitFails) = Throw closedError /\
  closes (trace cleanupWaitFails) = 0.
Proof.
  exact (@completion_is_that_of_cleanup _ _ treeDom cleanupWaitFails
           eq_refl eq_refl).
Defined.

Lemma gotoFails_raised :
  raisedAt gotoFails AtGoto (Error "net::ERR_NAME_NOT_RESOLVED").
Proof.
  split; [cbn; auto 10|]. split; [|reflexivity].
  intros s' Hin. cbn in Hin.
  repeat (destruct Hin as [<-|Hin]; [reflexivity|]). destruct Hin.
Defined.

Lemma body_failure_skips_to_cleanup_witness :
  calls (trace gotoFails) = [AtLaunch; AtNewPage; AtGoto; AtCleanupWait; AtClose].
Proof.
  exact (@body_failure_skips_to_cleanup _ _ treeDom gotoFails AtGoto _
           gotoFails_raised).
Defined.

End MoreSamples.
